(** * scraper_utils: table scraping with Helium, BeautifulSoup and pandas

    A shallow embedding of [src/scraper_utils.py] and of the parts of the
    three libraries it calls, followed by the properties of
    [scrape_table_from_url] and [close_browser].

    What is modelled and how:
    - a Python [str] is a [string]; its characters are read as code points
      below 256;
    - the BeautifulSoup tree is the inductive type [node]; the embedding
      starts from the tree that [BeautifulSoup(rendered, 'html.parser')]
      builds, the HTML parser itself is not modelled;
    - a pandas [DataFrame] is a record of column labels and rows of
      optional cells, [None] being the null that pads a short row;
    - Helium's process-global driver and the standard output are the two
      fields that [scraper_utils] changes in the [world]; Python exceptions
      are values of [exn] carried by the [Raise] outcome. *)

From Stdlib Require Import String Ascii Bool Arith ZArith Lia List.
From Stdlib Require Import Numbers.DecimalString.
Import ListNotations.

Local Open Scope string_scope.
Local Open Scope list_scope.

(** ** Python strings *)

Module PyStr.

(** [str.isspace] on one character, for the code points below 256. *)
Definition isspace (c : ascii) : bool :=
  let n := nat_of_ascii c in
  (((9 <=? n) && (n <=? 13)) || ((28 <=? n) && (n <=? 32))
   || (n =? 133) || (n =? 160))%nat.

Fixpoint lstrip (s : string) : string :=
  match s with
  | EmptyString => EmptyString
  | String c r => if isspace c then lstrip r else s
  end.

Fixpoint rstrip (s : string) : string :=
  match s with
  | EmptyString => EmptyString
  | String c r =>
      match rstrip r with
      | EmptyString => if isspace c then EmptyString else String c EmptyString
      | r' => String c r'
      end
  end.

(** [s.strip()] *)
Definition strip (s : string) : string := rstrip (lstrip s).

(** [''.join(parts)] *)
Definition join (parts : list string) : string :=
  fold_right append EmptyString parts.

(** [s != ''] *)
Definition nonempty (s : string) : bool :=
  match s with EmptyString => false | String _ _ => true end.

(** The line feed character, as a string. *)
Definition newline : string := String (ascii_of_nat 10) EmptyString.

(** [str(n)] for an [int]. *)
Definition str_int (n : Z) : string := NilZero.string_of_int (Z.to_int n).

Definition str_nat (n : nat) : string := str_int (Z.of_nat n).

(** A string starts well when it is empty or its first character is not
    white space. *)
Definition starts_ok (s : string) : bool :=
  match s with
  | EmptyString => true
  | String c _ => negb (isspace c)
  end.

(** [needle in s]: [s] is [pre ++ needle ++ post]. *)
Definition mentions (s needle : string) : Prop :=
  exists pre post, s = (pre ++ needle ++ post)%string.

End PyStr.

(** ** The BeautifulSoup tree *)

Module Bs4.

(** A page element is a [Tag] with a name and its contents, a
    [NavigableString] (ordinary text, [CData] included), or a string of
    one of the special classes ([Comment], [Script], [Stylesheet], ...)
    that [get_text] leaves out of the text of a cell.  Attributes play no
    part in [scraper_utils]. *)
#[warnings="-register-all"]
Inductive node : Type :=
| Tag (name : string) (contents : list node)
| NavigableString (text : string)
| SpecialString (text : string).

(** [el.descendants]: every element below [el], in document order. *)
Fixpoint descendants (el : node) : list node :=
  match el with
  | Tag _ cs => flat_map (fun c => c :: descendants c) cs
  | _ => []
  end.

Definition contents (el : node) : list node :=
  match el with
  | Tag _ cs => cs
  | _ => []
  end.

Definition is_tag_in (names : list string) (el : node) : bool :=
  match el with
  | Tag n _ => existsb (String.eqb n) names
  | _ => false
  end.

(** [el.find_all(names)] with the default [recursive=True]. *)
Definition find_all (names : list string) (el : node) : list node :=
  filter (is_tag_in names) (descendants el).

(** [el.find(name)]: the first match of [find_all], or [None]. *)
Definition find (name : string) (el : node) : option node :=
  hd_error (find_all [name] el).

(** [el._all_strings(strip=True)]: the ordinary strings below [el], each
    one stripped, the ones that strip to nothing skipped. *)
Definition all_strings_strip (el : node) : list string :=
  flat_map
    (fun d =>
       match d with
       | NavigableString s =>
           let s' := PyStr.strip s in
           if PyStr.nonempty s' then [s'] else []
       | _ => []
       end)
    (descendants el).

(** [el.get_text(strip=True)]: the separator is the empty string. *)
Definition get_text_strip (el : node) : string :=
  PyStr.join (all_strings_strip el).

(** [el._all_strings()] and [el.get_text()], without stripping. *)
Definition all_strings (el : node) : list string :=
  flat_map
    (fun d => match d with NavigableString s => [s] | _ => [] end)
    (descendants el).

Definition get_text (el : node) : string := PyStr.join (all_strings el).

End Bs4.

Import Bs4.

(** ** Exceptions and outcomes *)

(** The exception classes that the three libraries raise here; all of them
    derive from [Exception], which is what the [except] clauses of
    [scraper_utils] catch. *)
Inductive exn : Type :=
| RuntimeError (msg : string)
| TimeoutException (msg : string)
| WebDriverException (msg : string)
| AttributeError (msg : string)
| ValueError (msg : string).

(** [str(e)]: the message; Selenium's exceptions print it after
    [Message: ] and end the line. *)
Definition str_exn (e : exn) : string :=
  match e with
  | RuntimeError m | AttributeError m | ValueError m => m
  | TimeoutException m | WebDriverException m =>
      ("Message: " ++ m ++ PyStr.newline)%string
  end.

Inductive result (A : Type) : Type :=
| Ok (a : A)
| Raise (e : exn).

Arguments Ok {A} a.
Arguments Raise {A} e.

(** ** pandas *)

Module Pd.

(** A column label: a header string, or a position of the default
    [RangeIndex]. *)
Inductive label : Type :=
| Named (s : string)
| Positional (i : nat).

(** A cell is a [str] or [None]. *)
Definition cell : Type := option string.

Record DataFrame : Type := mkDataFrame {
  columns : list label;
  values : list (list cell)
}.

(** [df.shape] *)
Definition shape (df : DataFrame) : nat * nat :=
  (length (values df), length (columns df)).

(** [pd.DataFrame()] *)
Definition empty : DataFrame := mkDataFrame [] [].

Definition widest (data : list (list cell)) : nat :=
  fold_right (fun r w => Nat.max (length r) w) 0 data.

Definition pad_to (w : nat) (r : list cell) : list cell :=
  r ++ repeat None (w - length r).

(** [pd.DataFrame(data)] for a list of lists: the frame is as wide as the
    widest list, shorter lists are filled with [None] on the right, the
    columns are numbered from 0. *)
Definition of_rows (data : list (list cell)) : DataFrame :=
  let w := widest data in
  mkDataFrame (map Positional (seq 0 w)) (map (pad_to w) data).

(** [pd.DataFrame(data, columns=cols)] for a list of lists: an empty list
    gives a frame with the columns and no row; otherwise the width of the
    data has to be the number of columns, or pandas raises [ValueError]. *)
Definition with_columns (data : list (list cell)) (cols : list string)
  : result DataFrame :=
  match data with
  | [] => Ok (mkDataFrame (map Named cols) [])
  | _ :: _ =>
      let w := widest data in
      if (w =? length cols)%nat
      then Ok (mkDataFrame (map Named cols) (map (pad_to w) data))
      else Raise (ValueError
                    (PyStr.str_nat (length cols) ++ " columns passed, passed data had "
                     ++ PyStr.str_nat w ++ " columns")%string)
  end.

(** [str(df.shape)] *)
Definition str_shape (sh : nat * nat) : string :=
  ("(" ++ PyStr.str_nat (fst sh) ++ ", " ++ PyStr.str_nat (snd sh) ++ ")")%string.

End Pd.

(** ** The world: Helium's driver and the standard output *)

(** A launched browser, as far as [scraper_utils] observes it:
    - [polled t]: what the successive polls that [wait_until] makes before
      [t] seconds have passed find: the state of the live DOM, or the
      exception that looking for the elements raises;
    - [page_source]: the tree that
      [BeautifulSoup(driver.page_source, 'html.parser')] builds when the
      snapshot is taken, or the exception that reading or parsing the
      snapshot raises;
    - [quit_error]: the exception that [driver.quit()] raises, if any. *)
Record browser : Type := mkBrowser {
  polled : Z -> list (result node);
  page_source : result node;
  quit_error : option exn
}.

(** What launching Chrome on a URL does: the browser starts and loads the
    page; or the browser does not start; or it starts, becomes Helium's
    driver, and loading the page raises. *)
Inductive launch : Type :=
| Started (b : browser)
| StartFailed (e : exn)
| LoadFailed (b : browser) (e : exn).

(** [driver]: Helium's process-global driver; [stdout]: the lines printed
    so far; [chrome]: what launching Chrome on [url] does on this machine. *)
Record world : Type := mkWorld {
  driver : option browser;
  stdout : list string;
  chrome : string -> bool -> list string -> launch
}.

Definition set_driver (d : option browser) (w : world) : world :=
  mkWorld d (stdout w) (chrome w).

Definition M (A : Type) : Type := world -> result A * world.

Definition ret {A} (a : A) : M A := fun w => (Ok a, w).

Definition bind {A B} (m : M A) (k : A -> M B) : M B :=
  fun w =>
    match m w with
    | (Ok a, w') => k a w'
    | (Raise e, w') => (Raise e, w')
    end.

Definition raise {A} (e : exn) : M A := fun w => (Raise e, w).

(** [try: m except Exception as e: h e] *)
Definition try_except {A} (m : M A) (h : exn -> M A) : M A :=
  fun w =>
    match m w with
    | (Ok a, w') => (Ok a, w')
    | (Raise e, w') => h e w'
    end.

Definition lift {A} (r : result A) : M A := fun w => (r, w).

(** [print(line)] *)
Definition print (line : string) : M unit :=
  fun w => (Ok tt, mkWorld (driver w) (stdout w ++ [line]) (chrome w)).

Declare Scope py_scope.
Delimit Scope py_scope with py.
Notation "x <- m ;; k" := (bind m (fun x => k))
  (at level 61, m at next level, right associativity) : py_scope.
Notation "m ;; k" := (bind m (fun _ => k))
  (at level 61, right associativity) : py_scope.
Local Open Scope py_scope.

(** ** Helium *)

Module Helium.

Definition DRIVER_REQUIRED_MESSAGE : string :=
  ("This operation requires a browser window. Please call one of the following functions first:"
   ++ PyStr.newline ++ " * start_chrome()"
   ++ PyStr.newline ++ " * start_firefox()"
   ++ PyStr.newline ++ " * set_driver(...)")%string.

Definition require_driver : M browser :=
  fun w =>
    match driver w with
    | Some b => (Ok b, w)
    | None => (Raise (RuntimeError DRIVER_REQUIRED_MESSAGE), w)
    end.

(** [get_driver()] *)
Definition get_driver : M (option browser) := fun w => (Ok (driver w), w).

(** [kill_browser()]: [require_driver().quit()], then the driver is
    forgotten. *)
Definition kill_browser : M unit :=
  b <- require_driver ;;
  match quit_error b with
  | Some e => raise e
  | None => fun w => (Ok tt, set_driver None w)
  end.

(** The exception that a launch raises, and the browser that it leaves
    as the driver. *)
Definition launch_error (l : launch) : option exn :=
  match l with
  | Started _ => None
  | StartFailed e | LoadFailed _ e => Some e
  end.

Definition installed (l : launch) : option browser :=
  match l with
  | Started b | LoadFailed b _ => Some b
  | StartFailed _ => None
  end.

(** [start_chrome(url, headless=..., options=...)]: a browser that starts
    becomes the driver before the page is loaded. *)
Definition start_chrome (url : string) (headless : bool)
    (options : list string) : M browser :=
  fun w =>
    match chrome w url headless options with
    | Started b => (Ok b, set_driver (Some b) w)
    | StartFailed e => (Raise e, w)
    | LoadFailed b e => (Raise e, set_driver (Some b) w)
    end.

(** The loop of [WebDriverWait.until]: the condition is evaluated poll
    after poll until it holds; an exception of the condition leaves the
    loop; [TimeoutException] when the polls are used up. *)
Fixpoint poll_until (condition_fn : node -> bool) (polls : list (result node))
  : result unit :=
  match polls with
  | [] => Raise (TimeoutException "")
  | Raise e :: _ => Raise e
  | Ok dom :: rest =>
      if condition_fn dom then Ok tt else poll_until condition_fn rest
  end.

(** [wait_until(condition_fn, timeout_secs=...)] *)
Definition wait_until (condition_fn : node -> bool) (timeout_secs : Z)
  : M unit :=
  b <- require_driver ;;
  lift (poll_until condition_fn (polled b timeout_secs)).

(** [driver.find_elements('tag name', name)] on a state of the live DOM. *)
Definition find_elements (name : string) (dom : node) : list node :=
  find_all [name] dom.

End Helium.

(** ** scraper_utils *)

Import Pd Helium.

(** The options built when [chrome_options is None]. *)
Definition default_chrome_options : list string :=
  ["--no-sandbox"; "--disable-dev-shm-usage"; "--disable-gpu"].

(** [headers]: the [th] cells of the [thead], or else the cells of the
    first row, or else the empty list.  A [Tag] is always true in a
    condition, so [if thead] and [if first_row] test for [None]. *)
Definition headers (tbl : node) : list string :=
  match find "thead" tbl with
  | Some thead => map get_text_strip (find_all ["th"] thead)
  | None =>
      match find "tr" tbl with
      | Some first_row => map get_text_strip (find_all ["th"; "td"] first_row)
      | None => []
      end
  end.

(** [tbody = tbl.find('tbody') or tbl] *)
Definition tbody (tbl : node) : node :=
  match find "tbody" tbl with
  | Some tb => tb
  | None => tbl
  end.

(** [cells] of one [tr]. *)
Definition cells (tr : node) : list string :=
  map get_text_strip (find_all ["td"; "th"] tr).

(** The loop that fills [rows]: a row is appended when one of its cells
    is not the empty string. *)
Definition rows (tbl : node) : list (list string) :=
  fold_left
    (fun rows tr =>
       let cells := cells tr in
       if existsb PyStr.nonempty cells then rows ++ [cells] else rows)
    (find_all ["tr"] (tbody tbl))
    [].

(** One element of [normalized]:
    [r + [None] * (max_cols - len(r)) if len(r) < max_cols else r[:max_cols]] *)
Definition normalize_row (max_cols : nat) (r : list string) : list cell :=
  if (length r <? max_cols)%nat
  then map Some r ++ repeat None (max_cols - length r)
  else map Some (firstn max_cols r).

Definition normalized (headers : list string) (rows : list (list string))
  : list (list cell) :=
  let max_cols := length headers in
  map (normalize_row max_cols) rows.

(** [df]: the frame built from the table, lines 76 to 101. *)
Definition df (tbl : node) : result DataFrame :=
  let headers := headers tbl in
  let rows := rows tbl in
  match headers with
  | _ :: _ => Pd.with_columns (normalized headers rows) headers
  | [] => Ok (Pd.of_rows (map (map Some) rows))
  end.

(** The condition handed to [wait_until]:
    [len(get_driver().find_elements('tag name', 'table')) > 0] *)
Definition table_present (dom : node) : bool :=
  (0 <? length (find_elements "table" dom))%nat.

Definition timeout_line (timeout_secs : Z) (e : exn) : string :=
  ("Table not found within " ++ PyStr.str_int timeout_secs ++ " seconds:"
   ++ " " ++ str_exn e)%string.

Definition no_table_line : string :=
  "No <table> found in page source. The table may be rendered differently or inside an iframe.".

Definition shape_line (d : DataFrame) : string :=
  ("Extracted DataFrame shape: " ++ Pd.str_shape (Pd.shape d))%string.

(** The part of [scrape_table_from_url] after the wait, lines 66 to 106. *)
Definition scrape_rendered : M DataFrame :=
  d <- get_driver ;;
  match d with
  | None => raise (AttributeError "'NoneType' object has no attribute 'page_source'")
  | Some b =>
      soup <- lift (page_source b) ;;
      match find "table" soup with
      | None => print no_table_line ;; ret Pd.empty
      | Some tbl =>
          d <- lift (df tbl) ;;
          print (shape_line d) ;;
          ret d
      end
  end.

Definition scrape_table_from_url (url : string) (headless : bool)
    (timeout_secs : Z) (chrome_options : option (list string)) : M DataFrame :=
  let chrome_options :=
    match chrome_options with
    | None => default_chrome_options
    | Some o => o
    end in
  try_except kill_browser (fun _ => ret tt) ;;
  _ <- start_chrome url headless chrome_options ;;
  early <- try_except
             (wait_until table_present timeout_secs ;; ret None)
             (fun e => print (timeout_line timeout_secs e) ;; ret (Some Pd.empty)) ;;
  match early with
  | Some d => ret d
  | None => scrape_rendered
  end.

Definition closed_line : string := "Browser closed successfully.".

Definition already_closed_line (e : exn) : string :=
  ("kill_browser() failed or browser already closed: " ++ str_exn e)%string.

Definition close_browser : M unit :=
  try_except
    (kill_browser ;; print closed_line)
    (fun e => print (already_closed_line e)).

(** ** The pages of the end-to-end scenarios *)

Module Pages.

Definition txt (s : string) : node := NavigableString s.
Definition th (s : string) : node := Tag "th" [txt s].
Definition td (s : string) : node := Tag "td" [txt s].
Definition tr (cs : list node) : node := Tag "tr" cs.
Definition page (body : list node) : node :=
  Tag "[document]" [Tag "html" [Tag "body" body]].

(** S1: a [thead] with A and B, a [tbody] with two rows. *)
Definition table_S1 : node :=
  Tag "table"
    [Tag "thead" [tr [th "A"; th "B"]];
     Tag "tbody" [tr [td "1"; td "2"]; tr [td "3"; td "4"]]].

(** S2: no [thead], the first row holds [th] cells. *)
Definition table_S2 : node :=
  Tag "table" [tr [th "X"; th "Y"]; tr [td "a"; td "b"]].

(** S3: three headers, a row of two cells and a row of four. *)
Definition table_S3 : node :=
  Tag "table"
    [Tag "thead" [tr [th "A"; th "B"; th "C"]];
     Tag "tbody" [tr [td "1"; td "2"]; tr [td "3"; td "4"; td "5"; td "6"]]].

(** S4: a row whose cells are empty or blank, then a row with text. *)
Definition table_S4 : node :=
  Tag "table"
    [Tag "thead" [tr [th "A"; th "B"; th "C"]];
     Tag "tbody" [tr [Tag "td" []; td "  "; Tag "td" []]; tr [td "x"; td "y"; td "z"]]].

Definition url : string := "https://example.org/table".

(** A browser that shows [soup] from the first poll on and quits cleanly. *)
Definition serving (soup : node) : browser :=
  mkBrowser (fun _ => [Ok soup]) (Ok soup) None.

(** A machine on which Chrome starts and shows [soup], with no driver yet
    and nothing printed. *)
Definition fresh (soup : node) : world :=
  mkWorld None [] (fun _ _ _ => Started (serving soup)).

End Pages.

(** ** Auxiliary definitions for the statements *)

(** The elements whose texts are the [headers]: the [th] of the [thead],
    or else the [th] and [td] of the first [tr]. *)
Definition header_cells (tbl : node) : list node :=
  match find "thead" tbl with
  | Some thead => find_all ["th"] thead
  | None =>
      match find "tr" tbl with
      | Some first_row => find_all ["th"; "td"] first_row
      | None => []
      end
  end.

(** The rows that the loop visits, before the empty ones are skipped. *)
Definition visited (tbl : node) : list (list string) :=
  map cells (find_all ["tr"] (tbody tbl)).

(** The world after the teardown that precedes the launch. *)
Definition torn_down (w : world) : world :=
  snd (try_except kill_browser (fun _ => ret tt) w).

Definition printed (line : string) (w : world) : world :=
  mkWorld (driver w) (stdout w ++ [line]) (chrome w).

Definition options_or_default (chrome_options : option (list string))
  : list string :=
  match chrome_options with
  | None => default_chrome_options
  | Some o => o
  end.

(** ** The extraction as the specification words it *)

Module Spec.

(** Body rows: the direct [tr] children of the [tbody] when there is one,
    all the [tr] descendants of the table otherwise. *)
Definition body_trs (tbl : node) : list node :=
  match find "tbody" tbl with
  | Some tb => filter (is_tag_in ["tr"]) (contents tb)
  | None => find_all ["tr"] tbl
  end.

(** Cell text: the concatenated descendant text, stripped at both ends. *)
Definition cell_text (el : node) : string := PyStr.strip (get_text el).

Definition rows (tbl : node) : list (list string) :=
  filter (existsb PyStr.nonempty) (map cells (body_trs tbl)).

Definition cell_texts (tr : node) : list string :=
  map cell_text (find_all ["td"; "th"] tr).

(** Cell text, the other way round: every descendant string stripped on
    its own, then the stripped strings concatenated. *)
Definition stripped_pieces (el : node) : string :=
  PyStr.join (map PyStr.strip (all_strings el)).

End Spec.

(** Has the row only cells that are the empty string once stripped? *)
Definition blank_row (r : list cell) : bool :=
  forallb
    (fun c =>
       match c with
       | Some s => negb (PyStr.nonempty (PyStr.strip s))
       | None => false
       end)
    r.

Module Tables.

Import Pages.

(** A table inside a cell of the only row of the [tbody]. *)
Definition nested : node :=
  Tag "table"
    [Tag "tbody" [tr [Tag "td" [Tag "table" [tr [td "inner"]]]]]].

(** A cell whose text is split over two strings. *)
Definition mixed : node :=
  Tag "table" [tr [Tag "td" [txt "a "; Tag "b" [txt "b"]]]].

(** One header, and a row whose only text is in its second cell. *)
Definition cut : node :=
  Tag "table"
    [Tag "thead" [tr [th "A"]];
     Tag "tbody" [tr [Tag "td" []; td "x"]]].

(** No [thead], and a first row of two empty cells. *)
Definition blank_first : node :=
  Tag "table" [tr [Tag "td" []; Tag "td" []]; tr [td "a"; td "b"]].

(** No [thead], and the first row in a [tfoot] that precedes the [tbody]. *)
Definition foot_first : node :=
  Tag "table"
    [Tag "tfoot" [tr [td "F"; td "G"]];
     Tag "tbody" [tr [td "a"; td "b"]]].

(** A [thead] without [th] cells, and rows of one and of two cells. *)
Definition headerless : node :=
  Tag "table"
    [Tag "thead" [tr [td "A"; td "B"]];
     Tag "tbody" [tr [td "1"]; tr [td "2"; td "3"]]].

(** Headers, and a [tbody] whose only row is blank. *)
Definition headers_only : node :=
  Tag "table"
    [Tag "thead" [tr [th "A"; th "B"]];
     Tag "tbody" [tr [Tag "td" []; td "  "]]].

(** A [thead], two [tbody] elements and a [tfoot]. *)
Definition several_bodies : node :=
  Tag "table"
    [Tag "thead" [tr [th "A"; th "B"]];
     Tag "tbody" [tr [td "1"; td "2"]];
     Tag "tbody" [tr [td "3"; td "4"]];
     Tag "tfoot" [tr [td "F"; td "G"]]].

(** A table with a caption and no row. *)
Definition no_rows : node :=
  Tag "table" [Tag "caption" [txt "nothing yet"]].

(** A browser that showed a table while it was polled and has none left
    when the snapshot is taken. *)
Definition vanishing : browser :=
  mkBrowser (fun _ => [Ok (page []); Ok (page [table_S1])]) (Ok (page [])) None.

(** A browser that shows a table and is gone when the snapshot is read. *)
Definition crashing : browser :=
  mkBrowser (fun _ => [Ok (page [table_S1])])
    (Raise (WebDriverException "invalid session id")) None.


(** A browser whose [quit()] raises. *)
Definition stuck : browser :=
  mkBrowser (fun _ => []) (Ok (page []))
    (Some (WebDriverException "chrome not reachable")).

(** A machine on which Chrome does not start. *)
Definition no_chrome : world :=
  mkWorld None [] (fun _ _ _ => StartFailed (WebDriverException "unknown error: cannot find Chrome binary")).

(** A machine on which Chrome starts and cannot load the page. *)
Definition no_network : world :=
  mkWorld None []
    (fun _ _ _ => LoadFailed (serving (page []))
                    (WebDriverException "unknown error: net::ERR_NAME_NOT_RESOLVED")).

End Tables.

(** ** Strings: stripping and joining *)

Section Strings.

Import PyStr.

Lemma append_empty_r (s : string) : (s ++ "")%string = s.
Proof. induction s as [|c r IH]; simpl; [reflexivity | now rewrite IH]. Qed.

Lemma append_assoc (a b c : string) :
  ((a ++ b) ++ c)%string = (a ++ (b ++ c))%string.
Proof. induction a as [|x r IH]; simpl; [reflexivity | now rewrite IH]. Qed.

Lemma join_app (l1 l2 : list string) :
  join (l1 ++ l2) = (join l1 ++ join l2)%string.
Proof.
  induction l1 as [|p ps IH]; simpl; [reflexivity|].
  now rewrite IH, append_assoc.
Qed.

Lemma lstrip_starts_ok (s : string) : starts_ok (lstrip s) = true.
Proof.
  induction s as [|c r IH]; simpl; [reflexivity|].
  destruct (isspace c) eqn:E; [exact IH | simpl; now rewrite E].
Qed.

Lemma starts_ok_lstrip (s : string) : starts_ok s = true -> lstrip s = s.
Proof.
  destruct s as [|c r]; simpl; [reflexivity|].
  destruct (isspace c); [discriminate | reflexivity].
Qed.

Lemma rstrip_starts_ok (s : string) :
  starts_ok s = true -> starts_ok (rstrip s) = true.
Proof.
  destruct s as [|c r]; simpl; [reflexivity|].
  intros H. destruct (rstrip r); simpl; [|exact H].
  destruct (isspace c) eqn:E; [discriminate | simpl; now rewrite E].
Qed.

Lemma starts_ok_app (a b : string) :
  starts_ok a = true -> starts_ok b = true -> starts_ok (a ++ b) = true.
Proof. destruct a; simpl; auto. Qed.

Lemma rstrip_idem (s : string) : rstrip (rstrip s) = rstrip s.
Proof.
  induction s as [|c r IH]; simpl; [reflexivity|].
  destruct (rstrip r) as [|c' r'] eqn:E.
  - destruct (isspace c) eqn:Ec; simpl; [reflexivity | now rewrite Ec].
  - simpl in IH |- *. now rewrite IH.
Qed.

Lemma rstrip_app (a b : string) :
  rstrip b <> "" -> rstrip (a ++ b) = (a ++ rstrip b)%string.
Proof.
  intros Hb. induction a as [|c r IH]; simpl; [reflexivity|].
  rewrite IH. destruct (r ++ rstrip b)%string eqn:E; [|reflexivity].
  destruct r; simpl in E; [contradiction | discriminate].
Qed.

Lemma strip_lstrip (s : string) : lstrip (strip s) = strip s.
Proof.
  apply starts_ok_lstrip, rstrip_starts_ok, lstrip_starts_ok.
Qed.

Lemma strip_rstrip (s : string) : rstrip (strip s) = strip s.
Proof. apply rstrip_idem. Qed.

(** Stripping a stripped string changes nothing. *)
Lemma strip_idem (s : string) : strip (strip s) = strip s.
Proof. unfold strip at 1. now rewrite strip_lstrip, strip_rstrip. Qed.

(** A concatenation of stripped pieces is stripped. *)
Lemma strip_join_stripped (l : list string) :
  Forall (fun p => strip p = p) l -> strip (join l) = join l.
Proof.
  intros H.
  assert (Hl : starts_ok (join l) = true /\ rstrip (join l) = join l).
  { induction H as [|p ps Hp _ [IHs IHr]]; simpl; [split; reflexivity|].
    assert (Hps : starts_ok p = true /\ rstrip p = p).
    { rewrite <- Hp. split;
        [apply rstrip_starts_ok, lstrip_starts_ok | apply strip_rstrip]. }
    destruct Hps as [Hs Hr]. split; [now apply starts_ok_app|].
    destruct (join ps) as [|c r] eqn:E.
    - now rewrite append_empty_r.
    - rewrite rstrip_app; rewrite IHr; [reflexivity | discriminate]. }
  destruct Hl as [Hs Hr]. unfold strip.
  now rewrite (starts_ok_lstrip _ Hs).
Qed.

Lemma nonempty_false (s : string) : nonempty s = false -> s = "".
Proof. destruct s; [reflexivity | discriminate]. Qed.

End Strings.

(** ** BeautifulSoup: searching and text *)

Section Soup.

Lemma is_tag_in_swap (a b : string) (el : node) :
  is_tag_in [a; b] el = is_tag_in [b; a] el.
Proof.
  destruct el as [n cs| |]; simpl; [|reflexivity..].
  destruct (String.eqb n a), (String.eqb n b); reflexivity.
Qed.

(** The order of the names given to [find_all] does not matter. *)
Lemma find_all_swap (a b : string) (el : node) :
  find_all [a; b] el = find_all [b; a] el.
Proof. unfold find_all. apply filter_ext. intros x. apply is_tag_in_swap. Qed.

Lemma find_all_In (names : list string) (el x : node) :
  In x (find_all names el) <->
  In x (descendants el) /\ is_tag_in names x = true.
Proof. unfold find_all. apply filter_In. Qed.

(** [find] gives the first element of [find_all]. *)
Lemma find_some_In (name : string) (el x : node) :
  find name el = Some x -> In x (find_all [name] el).
Proof.
  unfold find. destruct (find_all [name] el); simpl; [discriminate|].
  intros [= ->]. now left.
Qed.

Lemma filter_flat_map {A B} (p : B -> bool) (f : A -> list B) (l : list A) :
  filter p (flat_map f l) = flat_map (fun a => filter p (f a)) l.
Proof.
  induction l as [|a l IH]; simpl; [reflexivity|].
  now rewrite filter_app, IH.
Qed.

(** The matches below a tag: for each child in turn, the child itself when
    it matches, then the matches below it. *)
Lemma find_all_Tag (names : list string) (n : string) (cs : list node) :
  find_all names (Tag n cs) =
  flat_map (fun c => (if is_tag_in names c then [c] else []) ++ find_all names c) cs.
Proof.
  unfold find_all. simpl. rewrite filter_flat_map.
  apply flat_map_ext. intros c. simpl.
  destruct (is_tag_in names c); reflexivity.
Qed.

(** With [strip=True] every string is stripped on its own before the
    strings are joined. *)
Lemma get_text_strip_pieces (el : node) :
  get_text_strip el = PyStr.join (map PyStr.strip (all_strings el)).
Proof.
  unfold get_text_strip, all_strings_strip, all_strings.
  induction (descendants el) as [|d ds IH]; simpl; [reflexivity|].
  rewrite map_app, !join_app, IH. f_equal.
  destruct d as [n cs|s|s]; simpl; try reflexivity.
  destruct (PyStr.nonempty (PyStr.strip s)) eqn:E; simpl; [reflexivity|].
  now rewrite (nonempty_false _ E).
Qed.

(** The text of a cell has no white space at either end. *)
Lemma get_text_strip_stripped (el : node) :
  PyStr.strip (get_text_strip el) = get_text_strip el.
Proof.
  rewrite get_text_strip_pieces. apply strip_join_stripped.
  apply Forall_forall. intros p Hp. apply in_map_iff in Hp.
  destruct Hp as [s [<- _]]. apply strip_idem.
Qed.

End Soup.

(** ** The extraction: rows, normalisation, frame *)

Section Extraction.

Lemma rows_loop (trs : list node) (acc : list (list string)) :
  fold_left
    (fun rows tr =>
       let cells := cells tr in
       if existsb PyStr.nonempty cells then rows ++ [cells] else rows)
    trs acc
  = acc ++ filter (existsb PyStr.nonempty) (map cells trs).
Proof.
  revert acc. induction trs as [|tr trs IH]; intros acc; simpl.
  - now rewrite app_nil_r.
  - rewrite IH. destruct (existsb PyStr.nonempty (cells tr)); [|reflexivity].
    now rewrite <- app_assoc.
Qed.

(** The loop keeps, in order, the visited rows that have a cell with
    text. *)
Lemma rows_filter (tbl : node) :
  rows tbl = filter (existsb PyStr.nonempty) (visited tbl).
Proof. unfold rows, visited. now rewrite rows_loop. Qed.

Lemma rows_In (tbl : node) (r : list string) :
  In r (rows tbl) <-> In r (visited tbl) /\ existsb PyStr.nonempty r = true.
Proof. rewrite rows_filter. apply filter_In. Qed.

Lemma normalize_row_length (max_cols : nat) (r : list string) :
  length (normalize_row max_cols r) = max_cols.
Proof.
  unfold normalize_row. destruct (Nat.ltb_spec (length r) max_cols).
  - rewrite length_app, length_map, repeat_length. lia.
  - rewrite length_map, length_firstn. lia.
Qed.

(** Padding and truncation in one formula. *)
Lemma normalize_row_eq (max_cols : nat) (r : list string) :
  normalize_row max_cols r =
  map Some (firstn max_cols r) ++ repeat None (max_cols - length r).
Proof.
  unfold normalize_row. destruct (Nat.ltb_spec (length r) max_cols).
  - now rewrite firstn_all2 by lia.
  - replace (max_cols - length r) with 0 by lia. simpl.
    now rewrite app_nil_r.
Qed.

(** Cell [i] of a normalised row: the cell of the row when it has one,
    the null otherwise; nothing from column [max_cols] on. *)
Lemma normalize_row_nth (max_cols : nat) (r : list string) (i : nat) :
  nth_error (normalize_row max_cols r) i =
  if (i <? max_cols)%nat then Some (nth_error r i) else None.
Proof.
  destruct (Nat.ltb_spec i max_cols) as [Hi|Hi].
  - rewrite normalize_row_eq.
    destruct (Nat.ltb_spec i (length r)) as [Hr|Hr].
    + rewrite nth_error_app1 by (rewrite length_map, length_firstn; lia).
      rewrite nth_error_map, nth_error_firstn.
      destruct (Nat.ltb_spec i max_cols); [|lia].
      destruct (nth_error r i) eqn:E; [reflexivity|].
      apply nth_error_None in E. lia.
    + rewrite nth_error_app2 by (rewrite length_map, length_firstn; lia).
      rewrite length_map, length_firstn.
      replace (nth_error r i) with (@None string)
        by (symmetry; now apply nth_error_None).
      rewrite nth_error_repeat by lia. reflexivity.
  - apply nth_error_None. rewrite normalize_row_length. exact Hi.
Qed.

Lemma widest_bound (data : list (list cell)) (r : list cell) :
  In r data -> length r <= Pd.widest data.
Proof.
  induction data as [|x xs IH]; simpl; [contradiction|].
  intros [->|H]; [lia | specialize (IH H); lia].
Qed.

Lemma widest_const (data : list (list cell)) (w : nat) :
  data <> [] -> (forall r, In r data -> length r = w) -> Pd.widest data = w.
Proof.
  induction data as [|x xs IH]; [congruence|]. intros _ H. simpl.
  rewrite (H x) by now left.
  destruct xs as [|y ys]; [simpl; lia|].
  rewrite IH; [lia | discriminate | intros r Hr; apply H; now right].
Qed.

Lemma widest_Some (rs : list (list string)) :
  Pd.widest (map (map Some) rs) = list_max (map (@length string) rs).
Proof.
  induction rs as [|r rs IH]; simpl; [reflexivity|].
  now rewrite length_map, IH.
Qed.

Lemma pad_to_length (w : nat) (r : list cell) :
  length r <= w -> length (Pd.pad_to w r) = w.
Proof.
  intros H. unfold Pd.pad_to. rewrite length_app, repeat_length. lia.
Qed.

Lemma pad_to_full (w : nat) (r : list cell) :
  length r = w -> Pd.pad_to w r = r.
Proof.
  intros <-. unfold Pd.pad_to. rewrite Nat.sub_diag. simpl.
  apply app_nil_r.
Qed.

(** The frame that [pd.DataFrame(normalized, columns=headers)] builds:
    the widths agree, so pandas does not raise. *)
Lemma with_columns_normalized (hs : list string) (rs : list (list string)) :
  Pd.with_columns (normalized hs rs) hs =
  Ok (mkDataFrame (map Named hs) (normalized hs rs)).
Proof.
  unfold Pd.with_columns. destruct (normalized hs rs) as [|x xs] eqn:E;
    [reflexivity|].
  assert (Hw : forall r, In r (x :: xs) -> length r = length hs).
  { intros r Hr. rewrite <- E in Hr. unfold normalized in Hr.
    apply in_map_iff in Hr. destruct Hr as [r0 [<- _]].
    apply normalize_row_length. }
  rewrite (widest_const (x :: xs) (length hs)) by (discriminate || exact Hw).
  rewrite Nat.eqb_refl. do 2 f_equal.
  rewrite <- (map_id (x :: xs)) at 2. apply map_ext_in.
  intros r Hr. apply pad_to_full. now apply Hw.
Qed.

Lemma df_with_headers (tbl : node) :
  headers tbl <> [] ->
  df tbl = Ok (mkDataFrame (map Named (headers tbl))
                 (normalized (headers tbl) (rows tbl))).
Proof.
  intros H. unfold df. destruct (headers tbl) as [|h hs] eqn:E;
    [congruence|]. apply with_columns_normalized.
Qed.

Lemma df_headerless (tbl : node) :
  headers tbl = [] -> df tbl = Ok (Pd.of_rows (map (map Some) (rows tbl))).
Proof. intros H. unfold df. now rewrite H. Qed.

(** The frame construction never raises. *)
Lemma df_total (tbl : node) : exists d, df tbl = Ok d.
Proof.
  destruct (headers tbl) as [|h hs] eqn:E.
  - eexists. now apply df_headerless.
  - eexists. apply df_with_headers. congruence.
Qed.

End Extraction.

(** ** The session: teardown, launch, wait *)

Section Session.

Lemma kill_browser_cases (w : world) :
  kill_browser w =
  match driver w with
  | None => (Raise (RuntimeError DRIVER_REQUIRED_MESSAGE), w)
  | Some b =>
      match quit_error b with
      | Some e => (Raise e, w)
      | None => (Ok tt, set_driver None w)
      end
  end.
Proof.
  unfold kill_browser, bind, require_driver.
  destruct (driver w) as [b|]; [|reflexivity].
  destruct (quit_error b); reflexivity.
Qed.

(** The teardown before the launch returns normally whatever
    [kill_browser] does; it prints nothing and leaves the machine as it
    is. *)
Lemma teardown_swallowed (w : world) :
  try_except kill_browser (fun _ => ret tt) w = (Ok tt, torn_down w)
  /\ stdout (torn_down w) = stdout w
  /\ chrome (torn_down w) = chrome w.
Proof.
  unfold torn_down, try_except. rewrite kill_browser_cases.
  destruct (driver w) as [b|]; [destruct (quit_error b)|]; simpl; auto.
Qed.

Lemma launched_world (w : world) (b : browser) :
  set_driver (Some b) (torn_down w) = mkWorld (Some b) (stdout w) (chrome w).
Proof.
  destruct (teardown_swallowed w) as [_ [Hout Hch]].
  unfold set_driver. now rewrite Hout, Hch.
Qed.

Lemma launched_printed (w : world) (b : browser) (line : string) :
  printed line (set_driver (Some b) (torn_down w)) =
  mkWorld (Some b) (stdout w ++ [line]) (chrome w).
Proof. now rewrite launched_world. Qed.

Lemma scrape_rendered_cases (w : world) (b : browser) :
  driver w = Some b ->
  scrape_rendered w =
  match page_source b with
  | Raise e => (Raise e, w)
  | Ok soup =>
      match find "table" soup with
      | None => (Ok Pd.empty, printed no_table_line w)
      | Some tbl =>
          match df tbl with
          | Ok d => (Ok d, printed (shape_line d) w)
          | Raise e => (Raise e, w)
          end
      end
  end.
Proof.
  intros Hd. unfold scrape_rendered, bind, get_driver. rewrite Hd.
  unfold lift. destruct (page_source b) as [soup|e]; [|reflexivity].
  destruct (find "table" soup) as [tbl|]; [|reflexivity].
  destruct (df tbl); reflexivity.
Qed.

(** [scrape_table_from_url], one case per way through it. *)
Lemma scrape_cases (url : string) (headless : bool) (timeout_secs : Z)
    (chrome_options : option (list string)) (w : world) :
  scrape_table_from_url url headless timeout_secs chrome_options w =
  match chrome w url headless (options_or_default chrome_options) with
  | StartFailed e => (Raise e, torn_down w)
  | LoadFailed b e => (Raise e, set_driver (Some b) (torn_down w))
  | Started b =>
      match poll_until table_present (polled b timeout_secs) with
      | Ok _ => scrape_rendered (set_driver (Some b) (torn_down w))
      | Raise e =>
          (Ok Pd.empty,
           mkWorld (Some b) (stdout w ++ [timeout_line timeout_secs e])
             (chrome w))
      end
  end.
Proof.
  destruct (teardown_swallowed w) as [Ht [Hout Hch]].
  unfold scrape_table_from_url. fold (options_or_default chrome_options).
  unfold bind at 1. rewrite Ht.
  unfold bind at 1. unfold start_chrome. rewrite Hch.
  destruct (chrome w url headless (options_or_default chrome_options))
    as [b|e|b e]; [|reflexivity|reflexivity].
  unfold bind at 1. unfold try_except, wait_until, bind, require_driver, lift.
  cbn beta iota delta [driver set_driver].
  destruct (poll_until table_present (polled b timeout_secs)); simpl.
  - reflexivity.
  - unfold print, ret. simpl. now rewrite Hout, Hch.
Qed.

(** When no poll that sees the page sees a table, the wait raises: the
    timeout, or the exception of a poll. *)
Lemma poll_until_no_table (polls : list (result node)) :
  (forall dom, In (Ok dom) polls -> find_elements "table" dom = []) ->
  exists e, poll_until table_present polls = Raise e.
Proof.
  induction polls as [|[dom|e] polls IH]; intros H; simpl.
  - eauto.
  - unfold table_present at 1. rewrite (H dom) by now left. simpl.
    apply IH. intros d Hd. apply H. now right.
  - eauto.
Qed.

Section Launched.

Variables (url : string) (headless : bool) (timeout_secs : Z)
  (chrome_options : option (list string)).

(** The ways through a call whose launch succeeds: the snapshot raises
    after the wait, or a frame is returned and one line printed. *)
Lemma scrape_launched (w : world) (b : browser) :
  chrome w url headless (options_or_default chrome_options) = Started b ->
  (exists e,
      poll_until table_present (polled b timeout_secs) = Ok tt
      /\ page_source b = Raise e
      /\ scrape_table_from_url url headless timeout_secs chrome_options w =
         (Raise e, mkWorld (Some b) (stdout w) (chrome w)))
  \/ (exists d line,
        scrape_table_from_url url headless timeout_secs chrome_options w =
        (Ok d, mkWorld (Some b) (stdout w ++ [line]) (chrome w))
        /\ ((exists e,
               poll_until table_present (polled b timeout_secs) = Raise e
               /\ d = Pd.empty /\ line = timeout_line timeout_secs e)
            \/ (exists soup,
                  poll_until table_present (polled b timeout_secs) = Ok tt
                  /\ page_source b = Ok soup
                  /\ find "table" soup = None
                  /\ d = Pd.empty /\ line = no_table_line)
            \/ (exists soup tbl,
                  poll_until table_present (polled b timeout_secs) = Ok tt
                  /\ page_source b = Ok soup
                  /\ find "table" soup = Some tbl
                  /\ df tbl = Ok d /\ line = shape_line d))).
Proof.
  intros Hc. rewrite scrape_cases, Hc.
  destruct (poll_until table_present (polled b timeout_secs)) as [[]|e] eqn:Hp.
  - rewrite (scrape_rendered_cases _ b) by reflexivity.
    destruct (page_source b) as [soup|e] eqn:Hs.
    + right. destruct (find "table" soup) as [tbl|] eqn:Hf.
      * destruct (df_total tbl) as [d Hd]. rewrite Hd.
        exists d, (shape_line d). rewrite launched_printed.
        split; [reflexivity|]. right. right. exists soup, tbl. auto.
      * exists Pd.empty, no_table_line. rewrite launched_printed.
        split; [reflexivity|]. right. left. exists soup. auto.
    + left. exists e. rewrite launched_world. auto.
  - right. exists Pd.empty, (timeout_line timeout_secs e).
    split; [reflexivity|]. left. exists e. auto.
Qed.

End Launched.

End Session.

(** ** End-to-end behaviour *)

Section EndToEnd.

Variables (url : string) (headless : bool) (timeout_secs : Z)
  (chrome_options : option (list string)).

(** When Chrome starts, a table shows up in time and the snapshot holds a
    table, the call returns the frame of the first table and prints its
    shape. *)
Lemma scrape_table_found (w : world) (b : browser) (soup tbl : node)
    (d : DataFrame) :
  chrome w url headless (options_or_default chrome_options) = Started b ->
  poll_until table_present (polled b timeout_secs) = Ok tt ->
  page_source b = Ok soup ->
  find "table" soup = Some tbl ->
  df tbl = Ok d ->
  scrape_table_from_url url headless timeout_secs chrome_options w =
  (Ok d, printed (shape_line d) (set_driver (Some b) (torn_down w))).
Proof.
  intros Hc Hp Hs Hf Hd. rewrite scrape_cases, Hc, Hp.
  rewrite (scrape_rendered_cases _ b) by reflexivity.
  now rewrite Hs, Hf, Hd.
Qed.

(** C1 (scenario S1): a page whose table has the [thead] A, B and the
    [tbody] rows 1, 2 and 3, 4 gives a frame with the headers A, B, the
    rows [1, 2] and [3, 4], and the shape (2, 2). *)
Theorem scrape_S1_happy_path (w : world) (b : browser) (soup : node) :
  chrome w url headless (options_or_default chrome_options) = Started b ->
  poll_until table_present (polled b timeout_secs) = Ok tt ->
  page_source b = Ok soup ->
  find "table" soup = Some Pages.table_S1 ->
  exists d w',
    scrape_table_from_url url headless timeout_secs chrome_options w = (Ok d, w')
    /\ columns d = [Named "A"; Named "B"]
    /\ values d = [[Some "1"; Some "2"]; [Some "3"; Some "4"]]
    /\ Pd.shape d = (2, 2).
Proof.
  intros Hc Hp Hs Hf.
  eexists. eexists. split.
  - apply (scrape_table_found w b soup Pages.table_S1); try assumption.
    reflexivity.
  - repeat split.
Qed.

(** C7 (scenario S5): when Chrome starts and no poll of the live DOM within
    [timeout_secs] sees a table, the call raises nothing: it returns the
    empty frame, of shape (0, 0), after printing one line that mentions
    [timeout_secs]; the browser stays open. *)
Theorem scrape_timeout_empty (w : world) (b : browser) :
  chrome w url headless (options_or_default chrome_options) = Started b ->
  (forall dom, In (Ok dom) (polled b timeout_secs) ->
               find_elements "table" dom = []) ->
  exists line,
    scrape_table_from_url url headless timeout_secs chrome_options w =
    (Ok Pd.empty, mkWorld (Some b) (stdout w ++ [line]) (chrome w))
    /\ Pd.shape Pd.empty = (0, 0)
    /\ PyStr.mentions line (PyStr.str_int timeout_secs).
Proof.
  intros Hc Hno.
  destruct (poll_until_no_table _ Hno) as [e Hp].
  exists (timeout_line timeout_secs e).
  split; [now rewrite scrape_cases, Hc, Hp|].
  split; [reflexivity|].
  exists "Table not found within ". eexists. reflexivity.
Qed.

(** C10: when a table is found whose headers are not empty and whose rows
    are all dropped, the call returns a frame that is not the empty one:
    no row, one column per header, named by the headers. *)
Theorem scrape_headers_without_rows (w : world) (b : browser)
    (soup tbl : node) :
  chrome w url headless (options_or_default chrome_options) = Started b ->
  poll_until table_present (polled b timeout_secs) = Ok tt ->
  page_source b = Ok soup ->
  find "table" soup = Some tbl ->
  headers tbl <> [] ->
  rows tbl = [] ->
  exists d w',
    scrape_table_from_url url headless timeout_secs chrome_options w = (Ok d, w')
    /\ d <> Pd.empty
    /\ Pd.shape d = (0, length (headers tbl))
    /\ columns d = map Named (headers tbl)
    /\ values d = [].
Proof.
  intros Hc Hp Hs Hf Hh Hr.
  pose proof (df_with_headers tbl Hh) as Hd. rewrite Hr in Hd. simpl in Hd.
  eexists. eexists. split.
  - apply (scrape_table_found w b soup tbl); eassumption.
  - repeat split.
    + intros [= E]. apply Hh. now destruct (headers tbl).
    + simpl. unfold Pd.shape. simpl. now rewrite length_map.
Qed.

End EndToEnd.

(** ** Teardown *)

Section Teardown.

Lemma close_browser_cases (w : world) :
  close_browser w =
  match fst (kill_browser w) with
  | Ok _ => (Ok tt, printed closed_line (set_driver None w))
  | Raise e => (Ok tt, printed (already_closed_line e) w)
  end.
Proof.
  unfold close_browser, try_except, bind. rewrite kill_browser_cases.
  destruct (driver w) as [b|]; [destruct (quit_error b)|]; reflexivity.
Qed.

(** C8: [close_browser] returns normally in every world, printing one
    line; after a teardown that succeeded a second call returns normally
    too, leaves the driver absent and prints the line of the failed
    [kill_browser] with the text of its [RuntimeError].  In
    [scrape_table_from_url] a failing teardown is swallowed and the launch
    takes place: an exception that the call raises is the one of the
    launch or, after a launch and a wait that succeeded, the one of the
    snapshot, and a browser that was launched is the driver afterwards. *)
Theorem close_browser_never_raises :
  (forall w, exists line,
      close_browser w =
      (Ok tt, mkWorld (driver (snd (close_browser w))) (stdout w ++ [line]) (chrome w)))
  /\ (forall w b,
        driver w = Some b -> quit_error b = None ->
        let w1 := printed closed_line (set_driver None w) in
        close_browser w = (Ok tt, w1)
        /\ (exists msg,
              close_browser w1 =
              (Ok tt, printed (already_closed_line (RuntimeError msg)) w1))
        /\ driver (snd (close_browser w1)) = None)
  /\ (forall url headless t o w e,
        fst (scrape_table_from_url url headless t o w) = Raise e ->
        launch_error (chrome w url headless (options_or_default o)) = Some e
        \/ exists b,
             chrome w url headless (options_or_default o) = Started b
             /\ poll_until table_present (polled b t) = Ok tt
             /\ page_source b = Raise e)
  /\ (forall url headless t o w b,
        chrome w url headless (options_or_default o) = Started b ->
        driver (snd (scrape_table_from_url url headless t o w)) = Some b).
Proof.
  split; [|split; [|split]].
  - intros w. rewrite close_browser_cases.
    destruct (fst (kill_browser w)); eexists; reflexivity.
  - intros w b Hd Hq w1.
    assert (H1 : close_browser w = (Ok tt, w1)).
    { rewrite close_browser_cases, kill_browser_cases, Hd, Hq. reflexivity. }
    assert (H2 : close_browser w1 =
                 (Ok tt, printed (already_closed_line
                                    (RuntimeError DRIVER_REQUIRED_MESSAGE)) w1)).
    { rewrite close_browser_cases, kill_browser_cases. reflexivity. }
    split; [exact H1|]. split; [eexists; exact H2|]. now rewrite H2.
  - intros url headless t o w e He.
    destruct (chrome w url headless (options_or_default o)) as [b|e'|b e']
      eqn:Hc.
    + right. exists b. split; [reflexivity|].
      destruct (scrape_launched url headless t o w b Hc)
        as [[e0 [Hp [Hs Hr]]] | [d [line [Hr _]]]];
        rewrite Hr in He; simpl in He; [|discriminate].
      injection He as <-. auto.
    + left. rewrite scrape_cases, Hc in He. simpl in He |- *. congruence.
    + left. rewrite scrape_cases, Hc in He. simpl in He |- *. congruence.
  - intros url headless t o w b Hc.
    destruct (scrape_launched url headless t o w b Hc)
      as [[e0 [_ [_ Hr]]] | [d [line [Hr _]]]]; now rewrite Hr.
Qed.

End Teardown.


(** ** Shape of the frame *)

Section Shape.

Lemma of_rows_width (rs : list (list string)) :
  let d := Pd.of_rows (map (map Some) rs) in
  let w := list_max (map (@length string) rs) in
  length (columns d) = w
  /\ values d = map (fun r => map Some r ++ repeat None (w - length r)) rs.
Proof.
  simpl. rewrite widest_Some, length_map, length_seq. split; [reflexivity|].
  rewrite map_map. apply map_ext. intros r. unfold Pd.pad_to.
  now rewrite length_map.
Qed.

Lemma of_rows_rectangular (data : list (list cell)) (r : list cell) :
  In r (values (Pd.of_rows data)) ->
  length r = length (columns (Pd.of_rows data)).
Proof.
  simpl. rewrite length_map, length_seq. intros Hr.
  apply in_map_iff in Hr. destruct Hr as [r0 [<- Hr0]].
  apply pad_to_length. now apply widest_bound.
Qed.

(** C2: the frame built from any table is rectangular: every row has as
    many cells as there are columns, so any two rows have the same number
    of cells; without headers that number is the width of the widest kept
    row, and each row is followed by nulls up to that width. *)
Theorem df_rectangular (tbl : node) :
  exists d,
    df tbl = Ok d
    /\ (forall r, In r (values d) -> length r = length (columns d))
    /\ (forall r1 r2, In r1 (values d) -> In r2 (values d) ->
                      length r1 = length r2)
    /\ (headers tbl = [] ->
        let w := list_max (map (@length string) (rows tbl)) in
        length (columns d) = w
        /\ values d =
           map (fun r => map Some r ++ repeat None (w - length r)) (rows tbl)).
Proof.
  assert (H : exists d,
             df tbl = Ok d
             /\ (forall r, In r (values d) -> length r = length (columns d))
             /\ (headers tbl = [] -> d = Pd.of_rows (map (map Some) (rows tbl)))).
  { destruct (headers tbl) as [|h hs] eqn:E.
    - exists (Pd.of_rows (map (map Some) (rows tbl))).
      split; [now apply df_headerless|]. split; [|reflexivity].
      intros r. apply of_rows_rectangular.
    - eexists. split; [apply df_with_headers; congruence|].
      split; [|discriminate]. simpl columns. simpl values.
      intros r Hr. unfold normalized in Hr. apply in_map_iff in Hr.
      destruct Hr as [r0 [<- _]].
      now rewrite normalize_row_length, length_map. }
  destruct H as [d [Hd [Hrect Hless]]]. exists d.
  split; [exact Hd|]. split; [exact Hrect|]. split.
  - intros r1 r2 H1 H2. now rewrite (Hrect r1 H1), (Hrect r2 H2).
  - intros Hh. rewrite (Hless Hh). apply of_rows_width.
Qed.

(** C3: with a non-empty header list of length [C] the frame has the
    headers as columns and one row of exactly [C] cells per kept row, in
    the same order: cell [i] is the row's cell [i] when the row has one and
    the null otherwise, and the cells of the row from [C] on are left
    out. *)
Theorem df_header_width (tbl : node) :
  headers tbl <> [] ->
  let C := length (headers tbl) in
  exists d,
    df tbl = Ok d
    /\ columns d = map Named (headers tbl)
    /\ Pd.shape d = (length (rows tbl), C)
    /\ values d = map (normalize_row C) (rows tbl)
    /\ (forall r, In r (values d) -> length r = C)
    /\ (forall r, length r < C ->
                  normalize_row C r = map Some r ++ repeat None (C - length r))
    /\ (forall r, C <= length r -> normalize_row C r = map Some (firstn C r))
    /\ (forall r i, nth_error (normalize_row C r) i =
                    if (i <? C)%nat then Some (nth_error r i) else None).
Proof.
  intros Hh C. eexists. split; [now apply df_with_headers|].
  split; [reflexivity|]. split.
  { unfold Pd.shape, normalized. simpl. now rewrite !length_map. }
  split; [reflexivity|]. split.
  { simpl. intros r Hr. apply in_map_iff in Hr. destruct Hr as [r0 [<- _]].
    apply normalize_row_length. }
  split.
  { intros r Hr. unfold normalize_row.
    destruct (Nat.ltb_spec (length r) C); [reflexivity | lia]. }
  split.
  { intros r Hr. unfold normalize_row.
    destruct (Nat.ltb_spec (length r) C); [lia | reflexivity]. }
  intros r i. apply normalize_row_nth.
Qed.

(** A [thead] without [th] cells leaves the headers empty: the columns
    are numbered and the short row is padded. *)
Example df_headerless_padded :
  headers Tables.headerless = []
  /\ df Tables.headerless =
     Ok (mkDataFrame [Positional 0; Positional 1]
           [[Some "1"; None]; [Some "2"; Some "3"]]).
Proof. split; reflexivity. Qed.

(** Scenario S3: headers A, B, C with a row of two cells and a row of
    four. *)
Example df_S3 :
  df Pages.table_S3 =
  Ok (mkDataFrame [Named "A"; Named "B"; Named "C"]
        [[Some "1"; Some "2"; None]; [Some "3"; Some "4"; Some "5"]]).
Proof. reflexivity. Qed.

End Shape.

(** ** Rows without text *)

Section BlankRows.

(** Scenario S4: the row of empty and blank cells is dropped. *)
Example df_S4 :
  visited Pages.table_S4 = [[""; ""; ""]; ["x"; "y"; "z"]]
  /\ df Pages.table_S4 =
     Ok (mkDataFrame [Named "A"; Named "B"; Named "C"]
           [[Some "x"; Some "y"; Some "z"]]).
Proof. split; reflexivity. Qed.

Lemma visited_stripped (tbl : node) (r : list string) (s : string) :
  In r (visited tbl) -> In s r -> PyStr.strip s = s.
Proof.
  unfold visited, cells. intros Hr Hs.
  apply in_map_iff in Hr. destruct Hr as [tr [<- _]].
  apply in_map_iff in Hs. destruct Hs as [el [<- _]].
  apply get_text_strip_stripped.
Qed.

Lemma kept_row_not_blank (r0 : list string) (W : nat) :
  (forall s, In s r0 -> PyStr.strip s = s) ->
  existsb PyStr.nonempty r0 = true ->
  length r0 <= W ->
  blank_row (map Some (firstn W r0) ++ repeat None (W - length r0)) = false.
Proof.
  intros Hs He Hw. rewrite firstn_all2 by exact Hw.
  apply existsb_exists in He. destruct He as [s [Hin Hne]].
  unfold blank_row.
  destruct (forallb _ _) eqn:E; [|reflexivity].
  rewrite forallb_forall in E.
  specialize (E (Some s)). simpl in E.
  rewrite (Hs s Hin), Hne in E. symmetry. apply E.
  apply in_or_app. left. now apply in_map.
Qed.

(** C4, as the code has it: the rows without a cell of text are skipped
    before the rows are normalised, so every row of the frame is an
    extracted row with some text, cut or padded to the width of the frame;
    it has a cell of text itself unless the cut removed it, which needs a
    row wider than the frame. *)
Theorem rows_with_text_kept (tbl : node) (d : DataFrame) :
  df tbl = Ok d ->
  let W := length (columns d) in
  rows tbl = filter (existsb PyStr.nonempty) (visited tbl)
  /\ forall r, In r (values d) ->
       exists r0,
         In r0 (visited tbl)
         /\ existsb PyStr.nonempty r0 = true
         /\ r = map Some (firstn W r0) ++ repeat None (W - length r0)
         /\ (length r0 <= W -> blank_row r = false).
Proof.
  intros Hd W. split; [apply rows_filter|].
  assert (Hmid : forall r, In r (values d) ->
            exists r0, In r0 (rows tbl)
              /\ r = map Some (firstn W r0) ++ repeat None (W - length r0)).
  { subst W. destruct (headers tbl) as [|h hs] eqn:E.
    - rewrite (df_headerless tbl E) in Hd. injection Hd as <-.
      destruct (of_rows_width (rows tbl)) as [Hw Hv]. cbv zeta in Hw, Hv.
      rewrite Hw, Hv. intros r Hr. apply in_map_iff in Hr.
      destruct Hr as [r0 [<- Hr0]]. exists r0. split; [exact Hr0|].
      rewrite firstn_all2; [reflexivity|].
      rewrite <- widest_Some, <- (length_map Some r0).
      apply widest_bound. now apply in_map.
    - assert (Hne : headers tbl <> []) by congruence.
      rewrite (df_with_headers tbl Hne) in Hd. injection Hd as <-.
      simpl columns. simpl values. rewrite length_map.
      intros r Hr. unfold normalized in Hr. apply in_map_iff in Hr.
      destruct Hr as [r0 [<- Hr0]]. exists r0. split; [exact Hr0|].
      apply normalize_row_eq. }
  intros r Hr. destruct (Hmid r Hr) as [r0 [Hr0 Heq]].
  apply rows_In in Hr0. destruct Hr0 as [Hv He].
  exists r0. repeat split; try assumption.
  intros Hw. rewrite Heq. apply kept_row_not_blank; try assumption.
  intros s. now apply (visited_stripped tbl r0).
Qed.

(** C4 as stated fails: with one header, a row whose only text is in its
    second cell is kept and then cut to its first cell, which is empty. *)
Lemma blank_row_returned :
  ~ (forall tbl d, df tbl = Ok d ->
       forall r, In r (values d) -> blank_row r = false).
Proof.
  intros H.
  specialize (H Tables.cut _ eq_refl [Some ""] (or_introl eq_refl)).
  discriminate H.
Qed.

End BlankRows.

(** ** Which rows are visited *)

Section BodyRows.

Lemma contents_descendants (el c : node) :
  In c (contents el) -> In c (descendants el).
Proof.
  destruct el as [n cs| |]; simpl; try contradiction.
  intros Hc. apply in_flat_map. exists c. split; [exact Hc | now left].
Qed.

Lemma find_all_flat (names : list string) (el : node) :
  (forall c, In c (contents el) -> find_all names c = []) ->
  find_all names el = filter (is_tag_in names) (contents el).
Proof.
  destruct el as [n cs| |]; try reflexivity.
  rewrite find_all_Tag. simpl contents.
  induction cs as [|c cs IH]; intros H; simpl; [reflexivity|].
  rewrite (H c) by now left. rewrite app_nil_r.
  rewrite IH by (intros c' Hc'; apply H; now right).
  destruct (is_tag_in names c); reflexivity.
Qed.

(** C5, as the code has it: the loop visits the [tr] descendants of the
    first [tbody] of the table, at any depth and in document order, or of
    the table when it has no [tbody].  The direct [tr] children of the
    [tbody] are among them, and they are all of them when no [tr] lies
    deeper. *)
Theorem body_rows_visited (tbl : node) :
  rows tbl =
  filter (existsb PyStr.nonempty) (map cells (find_all ["tr"] (tbody tbl)))
  /\ (find "tbody" tbl = None ->
      tbody tbl = tbl
      /\ find_all ["tr"] (tbody tbl) = Spec.body_trs tbl)
  /\ (forall tb, find "tbody" tbl = Some tb ->
      tbody tbl = tb
      /\ (forall x, In x (find_all ["tr"] tb) <->
                    In x (descendants tb) /\ is_tag_in ["tr"] x = true)
      /\ incl (Spec.body_trs tbl) (find_all ["tr"] tb)
      /\ ((forall c, In c (contents tb) -> find_all ["tr"] c = []) ->
          find_all ["tr"] tb = Spec.body_trs tbl
          /\ rows tbl = Spec.rows tbl)).
Proof.
  split; [apply rows_filter|]. split.
  - intros Hn. unfold tbody, Spec.body_trs. now rewrite Hn.
  - intros tb Hs.
    assert (Ht : tbody tbl = tb) by (unfold tbody; now rewrite Hs).
    assert (Hb : Spec.body_trs tbl = filter (is_tag_in ["tr"]) (contents tb))
      by (unfold Spec.body_trs; now rewrite Hs).
    split; [exact Ht|]. split; [intros x; apply find_all_In|]. split.
    + rewrite Hb. intros x Hx. apply filter_In in Hx.
      destruct Hx as [Hc Hx]. apply find_all_In.
      split; [now apply contents_descendants | exact Hx].
    + intros Hflat.
      assert (Heq : find_all ["tr"] tb = Spec.body_trs tbl)
        by (rewrite Hb; now apply find_all_flat).
      split; [exact Heq|].
      rewrite rows_filter. unfold visited, Spec.rows.
      now rewrite Ht, Heq.
Qed.

(** C5 as stated fails: a row of a table nested in a cell of the [tbody]
    is visited too. *)
Lemma nested_rows_visited :
  rows Tables.nested = [["inner"; "inner"]; ["inner"]]
  /\ Spec.rows Tables.nested = [["inner"; "inner"]]
  /\ rows Tables.nested <> Spec.rows Tables.nested.
Proof. repeat split. discriminate. Qed.

End BodyRows.

(** ** Cell text *)

Section CellText.

Lemma get_text_strip_single (el : node) (t : string) :
  all_strings el = [t] -> get_text_strip el = Spec.cell_text el.
Proof.
  intros H. rewrite get_text_strip_pieces. unfold Spec.cell_text, get_text.
  rewrite H. simpl. now rewrite !append_empty_r.
Qed.

Lemma is_th_is_cell (el : node) :
  is_tag_in ["th"] el = true -> is_tag_in ["th"; "td"] el = true.
Proof.
  destruct el as [n cs| |]; simpl; try discriminate.
  destruct (String.eqb n "th"); [reflexivity | discriminate].
Qed.

Lemma headers_texts (tbl : node) :
  headers tbl = map get_text_strip (header_cells tbl).
Proof.
  unfold headers, header_cells.
  destruct (find "thead" tbl); [reflexivity|].
  destruct (find "tr" tbl); reflexivity.
Qed.

(** Every header cell is a [th] or a [td]. *)
Lemma header_cells_tags (tbl el : node) :
  In el (header_cells tbl) -> is_tag_in ["th"; "td"] el = true.
Proof.
  unfold header_cells. destruct (find "thead" tbl) as [thead|].
  - intros H. apply find_all_In in H. now apply is_th_is_cell.
  - destruct (find "tr" tbl) as [first_row|]; [|contradiction].
    intros H. now apply find_all_In in H.
Qed.

(** C6, as the code has it: the text of each header cell and of each cell
    of each visited row is the concatenation of the strings below that
    cell, each string stripped on its own, so white space inside one
    string is kept and white space at the ends of each string is lost; the
    text has no white space at either end, and for a cell that holds one
    string it is the stripped concatenation. *)
Theorem cell_text_stripped_pieces (tbl : node) :
  headers tbl = map Spec.stripped_pieces (header_cells tbl)
  /\ visited tbl =
     map (fun tr => map Spec.stripped_pieces (find_all ["td"; "th"] tr))
       (find_all ["tr"] (tbody tbl))
  /\ (forall el, In el (header_cells tbl) -> is_tag_in ["th"; "td"] el = true)
  /\ (forall el,
        PyStr.strip (Spec.stripped_pieces el) = Spec.stripped_pieces el)
  /\ (forall el t,
        all_strings el = [t] -> Spec.stripped_pieces el = Spec.cell_text el).
Proof.
  assert (Hp : forall el, get_text_strip el = Spec.stripped_pieces el)
    by (intros el; apply get_text_strip_pieces).
  split; [|split; [|split; [|split]]].
  - rewrite headers_texts. apply map_ext. exact Hp.
  - unfold visited, cells. apply map_ext. intros tr.
    apply map_ext. exact Hp.
  - apply header_cells_tags.
  - intros el. rewrite <- Hp. apply get_text_strip_stripped.
  - intros el t H. rewrite <- Hp. now apply (get_text_strip_single el t).
Qed.

(** C6 as stated fails: in [<td>a <b>b</b></td>] the strings are
    stripped before they are joined, and the space between them is
    lost. *)
Lemma inner_space_lost :
  visited Tables.mixed = [["ab"]]
  /\ map Spec.cell_texts (find_all ["tr"] (tbody Tables.mixed)) = [["a b"]]
  /\ visited Tables.mixed
     <> map Spec.cell_texts (find_all ["tr"] (tbody Tables.mixed)).
Proof. repeat split. discriminate. Qed.

End CellText.

(** ** The first row as headers *)

Section FirstRow.

(** Scenario S2: no [thead]; the first row gives the headers and is a row
    of the frame as well. *)
Example df_S2 :
  df Pages.table_S2 =
  Ok (mkDataFrame [Named "X"; Named "Y"]
        [[Some "X"; Some "Y"]; [Some "a"; Some "b"]]).
Proof. reflexivity. Qed.

Lemma normalize_row_same_width (r : list string) :
  normalize_row (length r) r = map Some r.
Proof.
  rewrite normalize_row_eq, firstn_all, Nat.sub_diag. simpl.
  apply app_nil_r.
Qed.

Lemma existsb_nonempty_cons (r : list string) :
  existsb PyStr.nonempty r = true -> r <> [].
Proof. destruct r; [discriminate | discriminate]. Qed.

(** C9, as the code has it: without a [thead] the cells of the first
    [tr] of the table are the headers.  That row is a row of the frame
    too when the loop visits it, which it does when the table has no
    [tbody], and when it has a cell with text. *)
Theorem first_row_as_headers (tbl first_row : node) :
  find "thead" tbl = None ->
  find "tr" tbl = Some first_row ->
  headers tbl = cells first_row
  /\ (find "tbody" tbl = None -> In first_row (find_all ["tr"] (tbody tbl)))
  /\ (In first_row (find_all ["tr"] (tbody tbl)) ->
      existsb PyStr.nonempty (cells first_row) = true ->
      exists d,
        df tbl = Ok d
        /\ columns d = map Named (cells first_row)
        /\ In (map Some (cells first_row)) (values d)).
Proof.
  intros Hth Htr.
  assert (Hh : headers tbl = cells first_row).
  { unfold headers, cells. rewrite Hth, Htr. now rewrite find_all_swap. }
  split; [exact Hh|]. split.
  - intros Hb. unfold tbody. rewrite Hb. now apply find_some_In.
  - intros Hin Hne.
    assert (Hnil : headers tbl <> []).
    { rewrite Hh. now apply existsb_nonempty_cons. }
    eexists. split; [now apply df_with_headers|].
    split; [now rewrite Hh|]. simpl values. unfold normalized.
    rewrite Hh. rewrite <- normalize_row_same_width.
    apply in_map. apply rows_In. split; [|exact Hne].
    unfold visited. now apply in_map.
Qed.

(** C9 as stated fails: a first row of empty cells gives the headers but
    is skipped by the loop; so is a first row that lies in a [tfoot]
    before the [tbody]. *)
Lemma first_row_not_kept :
  ~ (forall tbl first_row,
       find "thead" tbl = None ->
       find "tr" tbl = Some first_row ->
       headers tbl = cells first_row
       /\ exists d, df tbl = Ok d
                    /\ In (map Some (cells first_row)) (values d)).
Proof.
  intros H.
  destruct (H Tables.blank_first _ eq_refl eq_refl) as [_ [d [Hd Hin]]].
  injection Hd as <-. simpl in Hin.
  destruct Hin as [Hin|[]]. discriminate Hin.
Qed.

Example foot_first_not_kept :
  df Tables.foot_first =
  Ok (mkDataFrame [Named "F"; Named "G"] [[Some "a"; Some "b"]]).
Proof. reflexivity. Qed.

End FirstRow.

(** ** The theorems at concrete tables and worlds *)

Section Instances.

Lemma scrape_S1_happy_path_witness :
  exists d w',
    scrape_table_from_url Pages.url true 30 None
      (Pages.fresh (Pages.page [Pages.table_S1])) = (Ok d, w')
    /\ columns d = [Named "A"; Named "B"]
    /\ values d = [[Some "1"; Some "2"]; [Some "3"; Some "4"]]
    /\ Pd.shape d = (2, 2).
Proof.
  apply (scrape_S1_happy_path Pages.url true 30%Z None
           (Pages.fresh (Pages.page [Pages.table_S1]))
           (Pages.serving (Pages.page [Pages.table_S1]))
           (Pages.page [Pages.table_S1]));
    reflexivity.
Defined.

Lemma df_header_width_witness :
  headers Pages.table_S3 <> []
  /\ exists d,
       df Pages.table_S3 = Ok d
       /\ Pd.shape d = (2, 3)
       /\ values d =
          [[Some "1"; Some "2"; None]; [Some "3"; Some "4"; Some "5"]].
Proof.
  assert (H : headers Pages.table_S3 <> []) by discriminate.
  split; [exact H|].
  destruct (df_header_width Pages.table_S3 H) as [d [Hd [_ [Hs [Hv _]]]]].
  exists d. split; [exact Hd|]. split; [exact Hs | exact Hv].
Defined.

Lemma rows_with_text_kept_witness :
  rows Pages.table_S4 = [["x"; "y"; "z"]]
  /\ forall r, In r [[Some "x"; Some "y"; Some "z"]] ->
       exists r0,
         In r0 (visited Pages.table_S4)
         /\ existsb PyStr.nonempty r0 = true
         /\ r = map Some (firstn 3 r0) ++ repeat None (3 - length r0)
         /\ (length r0 <= 3 -> blank_row r = false).
Proof.
  exact (rows_with_text_kept Pages.table_S4
           (mkDataFrame [Named "A"; Named "B"; Named "C"]
              [[Some "x"; Some "y"; Some "z"]])
           eq_refl).
Defined.

Lemma scrape_timeout_empty_witness :
  exists line,
    scrape_table_from_url Pages.url true 30 None (Pages.fresh (Pages.page [])) =
    (Ok Pd.empty,
     mkWorld (Some (Pages.serving (Pages.page []))) [line]
       (chrome (Pages.fresh (Pages.page []))))
    /\ Pd.shape Pd.empty = (0, 0)
    /\ PyStr.mentions line "30".
Proof.
  apply (scrape_timeout_empty Pages.url true 30%Z None
           (Pages.fresh (Pages.page [])) (Pages.serving (Pages.page []))).
  - reflexivity.
  - intros dom [[= <-]|[]]. reflexivity.
Defined.

Lemma first_row_as_headers_witness :
  headers Pages.table_S2 = ["X"; "Y"]
  /\ exists d,
       df Pages.table_S2 = Ok d
       /\ columns d = [Named "X"; Named "Y"]
       /\ In [Some "X"; Some "Y"] (values d).
Proof.
  destruct (first_row_as_headers Pages.table_S2
              (Pages.tr [Pages.th "X"; Pages.th "Y"]) eq_refl eq_refl)
    as [Hh [Hin Hd]].
  split; [exact Hh|].
  exact (Hd (Hin eq_refl) eq_refl).
Defined.

Lemma scrape_headers_without_rows_witness :
  exists d w',
    scrape_table_from_url Pages.url true 30 None
      (Pages.fresh (Pages.page [Tables.headers_only])) = (Ok d, w')
    /\ d <> Pd.empty
    /\ Pd.shape d = (0, 2)
    /\ columns d = [Named "A"; Named "B"]
    /\ values d = [].
Proof.
  apply (scrape_headers_without_rows Pages.url true 30%Z None
           (Pages.fresh (Pages.page [Tables.headers_only]))
           (Pages.serving (Pages.page [Tables.headers_only]))
           (Pages.page [Tables.headers_only])
           Tables.headers_only);
    try reflexivity.
  discriminate.
Defined.

(** Two calls of [close_browser] on a world with an open browser, and a
    call of [scrape_table_from_url] whose snapshot raises. *)
Lemma close_browser_never_raises_witness :
  (let w := mkWorld (Some (Pages.serving (Pages.page []))) []
              (chrome Tables.no_chrome) in
   let w1 := printed closed_line (set_driver None w) in
   close_browser w = (Ok tt, w1)
   /\ (exists msg,
         close_browser w1 =
         (Ok tt, printed (already_closed_line (RuntimeError msg)) w1))
   /\ driver (snd (close_browser w1)) = None)
  /\ (launch_error (Started Tables.crashing)
      = Some (WebDriverException "invalid session id")
      \/ exists b,
           Started Tables.crashing = Started b
           /\ poll_until table_present (polled b 30) = Ok tt
           /\ page_source b = Raise (WebDriverException "invalid session id")).
Proof.
  split.
  - intros w w1.
    exact (proj1 (proj2 close_browser_never_raises) w
             (Pages.serving (Pages.page [])) eq_refl eq_refl).
  - exact (proj1 (proj2 (proj2 close_browser_never_raises))
             Pages.url true 30%Z None
             (mkWorld (Some Tables.stuck) []
                (fun _ _ _ => Started Tables.crashing))
             (WebDriverException "invalid session id") eq_refl).
Defined.

End Instances.

(** ** Further properties of the tree search *)

Section Descendants.

Lemma node_forall_ind (P : node -> Prop) :
  (forall n cs, Forall P cs -> P (Tag n cs)) ->
  (forall s, P (NavigableString s)) ->
  (forall s, P (SpecialString s)) ->
  forall el, P el.
Proof.
  intros HT HN HS. fix IH 1. intros [n cs|s|s].
  - apply HT. induction cs as [|c cs IHcs]; constructor.
    + apply IH.
    + exact IHcs.
  - apply HN.
  - apply HS.
Qed.

(** What lies below a descendant lies below the element. *)
Lemma descendants_trans (x y z : node) :
  In y (descendants x) -> In z (descendants y) -> In z (descendants x).
Proof.
  revert y z. induction x as [n cs IH|s|s] using node_forall_ind;
    simpl; try contradiction.
  intros y z Hy Hz. apply in_flat_map in Hy. destruct Hy as [c [Hc Hy]].
  apply in_flat_map. exists c. split; [exact Hc|]. right.
  destruct Hy as [<-|Hy]; [exact Hz|].
  rewrite Forall_forall in IH. exact (IH c Hc y z Hy Hz).
Qed.

Lemma find_all_below (names : list string) (el sub x : node) :
  In sub (descendants el) ->
  In x (find_all names sub) -> In x (find_all names el).
Proof.
  intros Hs Hx. apply find_all_In in Hx. destruct Hx as [Hd Ht].
  apply find_all_In. split; [|exact Ht].
  now apply (descendants_trans el sub x).
Qed.

Lemma find_nothing (name : string) (el : node) :
  find name el = None -> find_all [name] el = [].
Proof. unfold find. destruct (find_all [name] el); simpl; congruence. Qed.

Lemma tbody_below (tbl x : node) :
  In x (find_all ["tr"] (tbody tbl)) -> In x (find_all ["tr"] tbl).
Proof.
  unfold tbody. destruct (find "tbody" tbl) as [tb|] eqn:E; [|auto].
  apply find_all_below. apply find_some_In in E.
  now apply find_all_In in E.
Qed.

End Descendants.

(** ** Further properties of the frame *)

Section FrameMore.

(** X1: the rows of the frame are the cell texts of the [tr] elements that
    [find_all] lists below the [tbody] (or the table), in that order, the
    rows without a cell of text left out, each row cut to the width of the
    frame or followed by nulls up to it; the frame has as many rows as
    rows were kept, and every visited [tr] is a [tr] of the table. *)
Theorem df_rows_in_order (tbl : node) :
  exists d,
    df tbl = Ok d
    /\ (let W := length (columns d) in
        values d =
        map (fun r0 => map Some (firstn W r0) ++ repeat None (W - length r0))
          (filter (existsb PyStr.nonempty)
             (map (fun tr => map get_text_strip (find_all ["td"; "th"] tr))
                (find_all ["tr"] (tbody tbl)))))
    /\ fst (Pd.shape d) =
       length (filter (existsb PyStr.nonempty)
                 (map (fun tr => map get_text_strip (find_all ["td"; "th"] tr))
                    (find_all ["tr"] (tbody tbl))))
    /\ incl (find_all ["tr"] (tbody tbl)) (find_all ["tr"] tbl).
Proof.
  assert (H : exists d,
             df tbl = Ok d
             /\ values d =
                map (fun r0 => map Some (firstn (length (columns d)) r0)
                               ++ repeat None (length (columns d) - length r0))
                  (rows tbl)).
  { destruct (headers tbl) as [|h hs] eqn:E.
    - eexists. split; [now apply df_headerless|].
      destruct (of_rows_width (rows tbl)) as [Hw Hv]. cbv zeta in Hw, Hv.
      rewrite Hw, Hv. apply map_ext_in. intros r Hr.
      rewrite firstn_all2; [reflexivity|].
      rewrite <- widest_Some, <- (length_map Some r).
      apply widest_bound. now apply in_map.
    - eexists. split; [apply df_with_headers; congruence|].
      simpl columns. simpl values. rewrite length_map. unfold normalized.
      apply map_ext. intros r. apply normalize_row_eq. }
  destruct H as [d [Hd Hv]]. exists d. split; [exact Hd|].
  rewrite rows_filter in Hv. unfold visited, cells in Hv.
  split; [exact Hv|]. split.
  { unfold Pd.shape. simpl. now rewrite Hv, length_map. }
  intros x. apply tbody_below.
Qed.

(** X2: a [thead] without any [th] leaves the headers empty, whatever the
    first row holds: the columns of the frame are numbered from 0 up to
    the width of the widest kept row. *)
Theorem thead_without_th_numbers_columns (tbl thead : node) :
  find "thead" tbl = Some thead ->
  find_all ["th"] thead = [] ->
  headers tbl = []
  /\ exists d,
       df tbl = Ok d
       /\ columns d =
          map Positional (seq 0 (list_max (map (@length string) (rows tbl)))).
Proof.
  intros Hf Hth.
  assert (Hh : headers tbl = []) by (unfold headers; now rewrite Hf, Hth).
  split; [exact Hh|]. eexists. split; [now apply df_headerless|].
  simpl. now rewrite widest_Some.
Qed.

Lemma find_all_none_flat (names : list string) (pre : list node) :
  (forall c, In c pre ->
             is_tag_in names c = false /\ find_all names c = []) ->
  flat_map
    (fun c => (if is_tag_in names c then [c] else []) ++ find_all names c) pre
  = [].
Proof.
  induction pre as [|c cs IH]; intros H; simpl; [reflexivity|].
  destruct (H c (or_introl eq_refl)) as [-> ->]. simpl.
  apply IH. intros c' Hc'. apply H. now right.
Qed.

(** X4: only the first [tbody] gives rows.  When nothing before it in the
    table is or holds a [tbody], the kept rows are those of a table that
    holds this [tbody] alone: what precedes it (a [thead]) and what follows
    it (further [tbody] elements, a [tfoot]) give no row. *)
Theorem rows_of_first_tbody_only (n : string) (pre cs post : list node) :
  (forall c, In c pre ->
             is_tag_in ["tbody"] c = false /\ find_all ["tbody"] c = []) ->
  tbody (Tag n (pre ++ Tag "tbody" cs :: post)) = Tag "tbody" cs
  /\ rows (Tag n (pre ++ Tag "tbody" cs :: post)) =
     rows (Tag n [Tag "tbody" cs]).
Proof.
  intros Hpre.
  assert (H1 : forall l,
             (l = pre ++ Tag "tbody" cs :: post \/ l = [Tag "tbody" cs]) ->
             tbody (Tag n l) = Tag "tbody" cs).
  { intros l Hl. unfold tbody, find. rewrite find_all_Tag.
    destruct Hl as [-> | ->].
    - rewrite flat_map_app, (find_all_none_flat _ _ Hpre). reflexivity.
    - reflexivity. }
  split; [apply H1; now left|].
  rewrite !rows_filter. unfold visited.
  rewrite (H1 _ (or_introl eq_refl)), (H1 _ (or_intror eq_refl)).
  reflexivity.
Qed.

End FrameMore.

(** ** Further properties of the session *)

Section SessionMore.

Variables (url : string) (headless : bool) (timeout_secs : Z)
  (chrome_options : option (list string)).

Lemma table_present_find (dom : node) :
  table_present dom = true <-> exists tbl, find "table" dom = Some tbl.
Proof.
  unfold table_present, find_elements, find.
  destruct (find_all ["table"] dom) as [|x xs]; simpl; split.
  - discriminate.
  - intros [tbl H]. discriminate H.
  - eauto.
  - reflexivity.
Qed.

Lemma no_rows_no_frame (tbl : node) :
  find "thead" tbl = None -> find "tr" tbl = None -> df tbl = Ok Pd.empty.
Proof.
  intros Hth Htr.
  assert (Hh : headers tbl = []) by (unfold headers; now rewrite Hth, Htr).
  assert (Hr : find_all ["tr"] (tbody tbl) = []).
  { destruct (find_all ["tr"] (tbody tbl)) as [|x xs] eqn:E; [reflexivity|].
    assert (Hx : In x (find_all ["tr"] tbl))
      by (apply tbody_below; rewrite E; now left).
    rewrite (find_nothing _ _ Htr) in Hx. contradiction. }
  rewrite (df_headerless tbl Hh), rows_filter. unfold visited.
  now rewrite Hr.
Qed.

(** X3: when the first table of the snapshot has no [thead] and no [tr]
    at all, the call returns the frame of [pd.DataFrame()], shape (0, 0),
    through the branch that builds the frame: the one line it prints is
    the shape line, not the line of the missing table. *)
Theorem table_without_rows_empty (w : world) (b : browser) (soup tbl : node) :
  chrome w url headless (options_or_default chrome_options) = Started b ->
  poll_until table_present (polled b timeout_secs) = Ok tt ->
  page_source b = Ok soup ->
  find "table" soup = Some tbl ->
  find "thead" tbl = None ->
  find "tr" tbl = None ->
  scrape_table_from_url url headless timeout_secs chrome_options w =
  (Ok Pd.empty,
   mkWorld (Some b) (stdout w ++ ["Extracted DataFrame shape: (0, 0)"])
     (chrome w)).
Proof.
  intros Hc Hp Hs Hf Hth Htr.
  rewrite (scrape_table_found url headless timeout_secs chrome_options
             w b soup tbl Pd.empty Hc Hp Hs Hf (no_rows_no_frame tbl Hth Htr)).
  now rewrite launched_printed.
Qed.

(** X5: a launch that fails, because the browser does not start or
    because the page does not load, is raised to the caller unchanged, and
    the call prints nothing. *)
Theorem scrape_launch_failure_propagates (w : world) (e : exn) :
  launch_error (chrome w url headless (options_or_default chrome_options))
  = Some e ->
  fst (scrape_table_from_url url headless timeout_secs chrome_options w)
  = Raise e
  /\ stdout (snd (scrape_table_from_url url headless timeout_secs
                    chrome_options w))
     = stdout w.
Proof.
  intros Hc. rewrite scrape_cases.
  destruct (teardown_swallowed w) as [_ [Hout _]].
  destruct (chrome w url headless (options_or_default chrome_options))
    as [b|e'|b e']; simpl in Hc; [discriminate| |];
    injection Hc as ->; simpl; auto.
Qed.

(** X6: when the wait succeeds but the snapshot of the page holds no table
    any more, the call returns the empty frame after printing the line
    that says so; the browser stays open. *)
Theorem scrape_no_table_in_snapshot (w : world) (b : browser) (soup : node) :
  chrome w url headless (options_or_default chrome_options) = Started b ->
  poll_until table_present (polled b timeout_secs) = Ok tt ->
  page_source b = Ok soup ->
  find_elements "table" soup = [] ->
  scrape_table_from_url url headless timeout_secs chrome_options w =
  (Ok Pd.empty, mkWorld (Some b) (stdout w ++ [no_table_line]) (chrome w)).
Proof.
  intros Hc Hp Hs Hn. rewrite scrape_cases, Hc, Hp.
  rewrite (scrape_rendered_cases _ b) by reflexivity. rewrite Hs.
  unfold find. unfold find_elements in Hn. rewrite Hn. simpl.
  now rewrite launched_printed.
Qed.


(** X8: the value returned, or the exception raised, depends on the
    launch alone: neither a browser left open by an earlier call nor what
    was printed before changes it. *)
Theorem scrape_result_ignores_old_session (w1 w2 : world) :
  chrome w1 url headless (options_or_default chrome_options) =
  chrome w2 url headless (options_or_default chrome_options) ->
  fst (scrape_table_from_url url headless timeout_secs chrome_options w1) =
  fst (scrape_table_from_url url headless timeout_secs chrome_options w2).
Proof.
  intros Hc. rewrite !scrape_cases, Hc.
  destruct (chrome w2 url headless (options_or_default chrome_options))
    as [b|e|b e]; [|reflexivity|reflexivity].
  destruct (poll_until table_present (polled b timeout_secs));
    [|reflexivity].
  rewrite !(scrape_rendered_cases _ b) by reflexivity.
  destruct (page_source b) as [soup|e]; [|reflexivity].
  destruct (find "table" soup) as [tbl|]; [|reflexivity].
  destruct (df tbl); reflexivity.
Qed.

(** X9: when the snapshot holds a table, the frame returned is the one of
    its first table, and the line printed is the shape of that frame. *)
Theorem scrape_first_table_of_snapshot (w : world) (b : browser)
    (soup : node) :
  chrome w url headless (options_or_default chrome_options) = Started b ->
  poll_until table_present (polled b timeout_secs) = Ok tt ->
  page_source b = Ok soup ->
  table_present soup = true ->
  exists tbl d,
    hd_error (find_elements "table" soup) = Some tbl
    /\ df tbl = Ok d
    /\ scrape_table_from_url url headless timeout_secs chrome_options w =
       (Ok d, mkWorld (Some b) (stdout w ++ [shape_line d]) (chrome w)).
Proof.
  intros Hc Hp Hs Ht. apply table_present_find in Ht. destruct Ht as [tbl Hf].
  destruct (df_total tbl) as [d Hd]. exists tbl, d.
  split; [exact Hf|]. split; [exact Hd|].
  rewrite (scrape_table_found url headless timeout_secs chrome_options
             w b soup tbl d Hc Hp Hs Hf Hd).
  now rewrite launched_printed.
Qed.

End SessionMore.

Section TeardownMore.

(** X10: when [quit()] of the open browser raises, [close_browser]
    returns normally, prints the text of that exception and keeps the
    driver, so that a second call does the same again. *)
Theorem close_browser_keeps_stuck_driver (w : world) (b : browser) (e : exn) :
  driver w = Some b ->
  quit_error b = Some e ->
  let w1 := printed (already_closed_line e) w in
  close_browser w = (Ok tt, w1)
  /\ driver w1 = Some b
  /\ close_browser w1 = (Ok tt, printed (already_closed_line e) w1).
Proof.
  intros Hd Hq w1.
  assert (H1 : driver w1 = Some b) by exact Hd.
  split; [|split; [exact H1|]].
  - rewrite close_browser_cases, kill_browser_cases, Hd, Hq. reflexivity.
  - rewrite close_browser_cases, kill_browser_cases, H1, Hq. reflexivity.
Qed.

(** X11: the browser that a launch leaves as the driver is closed by
    [close_browser] after the call, whether the call returned a frame or
    raised: when its [quit()] succeeds the driver is gone and the line of
    the successful teardown follows what the call printed. *)
Theorem scrape_then_close_browser (url : string) (headless : bool)
    (timeout_secs : Z) (chrome_options : option (list string))
    (w : world) (b : browser) :
  installed (chrome w url headless (options_or_default chrome_options))
  = Some b ->
  quit_error b = None ->
  let w' :=
    snd (scrape_table_from_url url headless timeout_secs chrome_options w) in
  driver w' = Some b
  /\ close_browser w' =
     (Ok tt, mkWorld None (stdout w' ++ [closed_line]) (chrome w)).
Proof.
  intros Hi Hq w'.
  assert (H : driver w' = Some b /\ chrome w' = chrome w).
  { subst w'. rewrite scrape_cases.
    destruct (chrome w url headless (options_or_default chrome_options))
      as [b0|e|b0 e] eqn:Hc; simpl in Hi; [|discriminate|];
      injection Hi as ->.
    - destruct (scrape_launched url headless timeout_secs chrome_options
                  w b Hc) as [[e [_ [_ Hr]]] | [d [line [Hr _]]]];
        rewrite scrape_cases, Hc in Hr; rewrite Hr; auto.
    - rewrite launched_world. auto. }
  destruct H as [Hd Hch]. split; [exact Hd|].
  rewrite close_browser_cases, kill_browser_cases, Hd, Hq.
  unfold printed, set_driver. simpl. now rewrite Hch.
Qed.

End TeardownMore.

(** ** The further properties at concrete tables and worlds *)

Section MoreInstances.

Lemma thead_without_th_numbers_columns_witness :
  headers Tables.headerless = []
  /\ exists d,
       df Tables.headerless = Ok d
       /\ columns d = [Positional 0; Positional 1].
Proof.
  exact (thead_without_th_numbers_columns Tables.headerless
           (Tag "thead" [Pages.tr [Pages.td "A"; Pages.td "B"]])
           eq_refl eq_refl).
Defined.

Lemma table_without_rows_empty_witness :
  scrape_table_from_url Pages.url true 30 None
    (Pages.fresh (Pages.page [Tables.no_rows])) =
  (Ok Pd.empty,
   mkWorld (Some (Pages.serving (Pages.page [Tables.no_rows])))
     ["Extracted DataFrame shape: (0, 0)"]
     (chrome (Pages.fresh (Pages.page [Tables.no_rows])))).
Proof.
  exact (table_without_rows_empty Pages.url true 30%Z None
           (Pages.fresh (Pages.page [Tables.no_rows]))
           (Pages.serving (Pages.page [Tables.no_rows]))
           (Pages.page [Tables.no_rows]) Tables.no_rows
           eq_refl eq_refl eq_refl eq_refl eq_refl eq_refl).
Defined.

Lemma rows_of_first_tbody_only_witness :
  tbody Tables.several_bodies =
  Tag "tbody" [Pages.tr [Pages.td "1"; Pages.td "2"]]
  /\ rows Tables.several_bodies = [["1"; "2"]].
Proof.
  apply (rows_of_first_tbody_only "table"
           [Tag "thead" [Pages.tr [Pages.th "A"; Pages.th "B"]]]
           [Pages.tr [Pages.td "1"; Pages.td "2"]]
           [Tag "tbody" [Pages.tr [Pages.td "3"; Pages.td "4"]];
            Tag "tfoot" [Pages.tr [Pages.td "F"; Pages.td "G"]]]).
  intros c [<-|[]]. split; reflexivity.
Defined.

Lemma scrape_launch_failure_propagates_witness :
  fst (scrape_table_from_url Pages.url true 30 None Tables.no_network)
  = Raise (WebDriverException "unknown error: net::ERR_NAME_NOT_RESOLVED")
  /\ stdout (snd (scrape_table_from_url Pages.url true 30 None
                    Tables.no_network))
     = [].
Proof.
  exact (scrape_launch_failure_propagates Pages.url true 30%Z None
           Tables.no_network _ eq_refl).
Defined.

Lemma scrape_no_table_in_snapshot_witness :
  scrape_table_from_url Pages.url true 30 None
    (mkWorld None [] (fun _ _ _ => Started Tables.vanishing)) =
  (Ok Pd.empty,
   mkWorld (Some Tables.vanishing) [no_table_line]
     (fun _ _ _ => Started Tables.vanishing)).
Proof.
  exact (scrape_no_table_in_snapshot Pages.url true 30%Z None
           (mkWorld None [] (fun _ _ _ => Started Tables.vanishing))
           Tables.vanishing (Pages.page []) eq_refl eq_refl eq_refl eq_refl).
Defined.


Lemma scrape_result_ignores_old_session_witness :
  fst (scrape_table_from_url Pages.url true 30 None
         (mkWorld (Some Tables.stuck) ["earlier output"]
            (fun _ _ _ =>
               Started (Pages.serving (Pages.page [Pages.table_S1])))))
  = fst (scrape_table_from_url Pages.url true 30 None
           (Pages.fresh (Pages.page [Pages.table_S1]))).
Proof.
  exact (scrape_result_ignores_old_session Pages.url true 30%Z None
           (mkWorld (Some Tables.stuck) ["earlier output"]
              (fun _ _ _ =>
                 Started (Pages.serving (Pages.page [Pages.table_S1]))))
           (Pages.fresh (Pages.page [Pages.table_S1])) eq_refl).
Defined.

Lemma scrape_first_table_of_snapshot_witness :
  exists tbl d,
    hd_error (find_elements "table"
                (Pages.page [Pages.table_S2; Pages.table_S1])) = Some tbl
    /\ df tbl = Ok d
    /\ scrape_table_from_url Pages.url true 30 None
         (Pages.fresh (Pages.page [Pages.table_S2; Pages.table_S1])) =
       (Ok d,
        mkWorld
          (Some (Pages.serving (Pages.page [Pages.table_S2; Pages.table_S1])))
          [shape_line d]
          (chrome (Pages.fresh (Pages.page [Pages.table_S2; Pages.table_S1])))).
Proof.
  exact (scrape_first_table_of_snapshot Pages.url true 30%Z None
           (Pages.fresh (Pages.page [Pages.table_S2; Pages.table_S1]))
           (Pages.serving (Pages.page [Pages.table_S2; Pages.table_S1]))
           (Pages.page [Pages.table_S2; Pages.table_S1])
           eq_refl eq_refl eq_refl eq_refl).
Defined.

Lemma close_browser_keeps_stuck_driver_witness :
  let w := mkWorld (Some Tables.stuck) [] (chrome Tables.no_chrome) in
  let w1 :=
    printed
      (already_closed_line (WebDriverException "chrome not reachable")) w in
  close_browser w = (Ok tt, w1)
  /\ driver w1 = Some Tables.stuck
  /\ close_browser w1 =
     (Ok tt,
      printed
        (already_closed_line (WebDriverException "chrome not reachable")) w1).
Proof.
  exact (close_browser_keeps_stuck_driver
           (mkWorld (Some Tables.stuck) [] (chrome Tables.no_chrome))
           Tables.stuck _ eq_refl eq_refl).
Defined.

(** A call whose snapshot raises, then [close_browser]. *)
Lemma scrape_then_close_browser_witness :
  let w := mkWorld None [] (fun _ _ _ => Started Tables.crashing) in
  let w' := snd (scrape_table_from_url Pages.url true 30 None w) in
  driver w' = Some Tables.crashing
  /\ close_browser w' =
     (Ok tt, mkWorld None (stdout w' ++ [closed_line]) (chrome w)).
Proof.
  intros w.
  exact (scrape_then_close_browser Pages.url true 30%Z None
           w Tables.crashing eq_refl eq_refl).
Defined.

End MoreInstances.
